(** * yaverapp: authentication and user routes

    A shallow embedding of the Express/TypeORM backend:

    - [services/auth.service.ts]       (AuthService: register, login, generateToken)
    - [middleware/auth.middleware.ts]  (auth)
    - [routes/auth.routes.ts]          (POST /register, POST /token, GET /login)
    - [routes/user.routes.ts]          (GET /login, POST /, GET /:id)
    - [repositories/UserRepository.ts] and [repositories/user.repository.ts]
    - [entities/User.ts]               (column metadata, [select: false] on password)
    - [config/env.validation.ts]       (validateEnv)

    Response bodies are JSON values, objects being association lists from
    property names to values; a thrown [Error] is the [Throw] constructor
    of [result]; the relational store is an explicit state threaded through
    every handler; the clock and bcrypt's salt are arguments.
    The third-party packages (bcrypt, jsonwebtoken, validator's isEmail,
    the uuid generator of the database) are interfaces, given as type
    classes whose fields carry the contract of the package. *)

From Stdlib Require Import String Ascii List ZArith NArith Bool Lia.
From Stdlib Require Import Floats.
Import ListNotations.
Open Scope string_scope.
Open Scope Z_scope.

Set Implicit Arguments.
Set Warnings "-register-all".

(* ================================================================== *)
(** ** JavaScript strings *)

Module JsString.

(** [strip_prefix p s] is [Some rest] when [s = p ++ rest]. *)
Fixpoint strip_prefix (p s : string) : option string :=
  match p, s with
  | EmptyString, _ => Some s
  | String a p', String b s' =>
      if Ascii.eqb a b then strip_prefix p' s' else None
  | String _ _, EmptyString => None
  end.

(** [String.prototype.replace(pat, rep)] with a string pattern: the
    first occurrence of [pat], scanning from the left, is replaced. *)
Fixpoint replace (pat rep s : string) : string :=
  match strip_prefix pat s with
  | Some rest => rep ++ rest
  | None =>
      match s with
      | EmptyString => EmptyString
      | String c s' => String c (replace pat rep s')
      end
  end.

(** JavaScript truthiness of a string: only [''] is falsy. *)
Definition truthy (s : string) : bool := negb (String.eqb s "").

End JsString.

(* ================================================================== *)
(** ** JSON values *)

Inductive json : Type :=
| JNull
| JStr (s : string)
| JNum (z : Z)
| JArr (items : list json)
| JObj (fields : list (string * json)).

(** [mentions k j]: some object nested anywhere in [j] has a property [k]. *)
Fixpoint mentions (k : string) (j : json) : bool :=
  match j with
  | JArr items => existsb (mentions k) items
  | JObj fields =>
      (fix go (fs : list (string * json)) : bool :=
         match fs with
         | [] => false
         | (k', v) :: fs' => String.eqb k k' || mentions k v || go fs'
         end) fields
  | _ => false
  end.

(* ================================================================== *)
(** ** Thrown errors and the store monad *)

Inductive result (A : Type) : Type :=
| Ok (a : A)
| Throw (message : string).
Arguments Ok {A} a.
Arguments Throw {A} message.

(** ** The User entity ([entities/User.ts]) *)

(** A row of the [user] table: every column is NOT NULL. *)
Record UserRow : Type := mkRow {
  row_id : string;
  row_username : string;
  row_email : string;
  row_password : string;
  row_createdAt : Z;
  row_updatedAt : Z
}.

(** An instance of the entity class [User] as TypeORM hands it to the
    code.  The [password] property is absent ([None]) when the column was
    not part of the selection.  The [dataPoints] relation is never loaded
    by the queries below and is left out. *)
Record User : Type := mkUser {
  id : string;
  username : string;
  email : string;
  password : option string;
  createdAt : Z;
  updatedAt : Z
}.

(** [Partial<User>] as the callers build it: the client-settable string
    columns, each present or absent.  It is also the shape of a JSON
    request body. *)
Record UserData : Type := mkData {
  ud_username : option string;
  ud_email : option string;
  ud_password : option string
}.

(** The relational store behind [AppDataSource]: the rows of the user
    table, and the failure (data source not initialised, connection lost)
    that every query currently rejects with, if any. *)
Record Db : Type := mkDb {
  rows : list UserRow;
  fault : option string
}.

(** An asynchronous computation against the store. *)
Definition M (A : Type) : Type := Db -> result A * Db.

Definition ret {A} (a : A) : M A := fun db => (Ok a, db).
Definition throw {A} (msg : string) : M A := fun db => (Throw msg, db).
Definition bind {A B} (m : M A) (k : A -> M B) : M B :=
  fun db =>
    match m db with
    | (Ok a, db') => k a db'
    | (Throw msg, db') => (Throw msg, db')
    end.
Declare Scope store_scope.
Delimit Scope store_scope with store.
Notation "x <- m ;; k" := (bind m (fun x => k))
  (at level 61, m at next level, right associativity) : store_scope.
Open Scope store_scope.

(* ================================================================== *)
(** ** Third-party packages *)

(** bcrypt.  [bcrypt_hash data rounds salt] is [bcrypt.hash(data, rounds)]
    when the generated salt is [salt]; [bcrypt_compare data encrypted] is
    [bcrypt.compare].  The contract: a digest verifies against the
    plaintext it was made from. *)
Class Bcrypt : Type := {
  bcrypt_hash : string -> nat -> string -> string;
  bcrypt_compare : string -> string -> bool;
  bcrypt_compare_hash :
    forall data rounds salt,
      bcrypt_compare data (bcrypt_hash data rounds salt) = true
}.

Module Token.
(** The decoded payload of a token: [{ id, iat, exp }], times in
    seconds. *)
Record payload : Type := mkPayload {
  id : string;
  iat : Z;
  exp : Z
}.
End Token.

(** jsonwebtoken with HS256.  [hs256 secret p] is the signature of the
    payload under the secret; [jwt_encode]/[jwt_decode] are the compact
    serialisation of a payload with a signature and its parser. *)
Class Jwt : Type := {
  hs256 : string -> Token.payload -> N;
  jwt_encode : Token.payload -> N -> string;
  jwt_decode : string -> option (Token.payload * N);
  jwt_decode_encode :
    forall p sig, jwt_decode (jwt_encode p sig) = Some (p, sig);
  jwt_encode_nonempty :
    forall p sig, jwt_encode p sig <> ""
}.

(** validator.js [isEmail], as used by express-validator; the empty
    string is not an address. *)
Class Validator : Type := {
  isEmail : string -> bool;
  isEmail_empty : isEmail "" = false
}.

(** The store's uuid generator for [@PrimaryGeneratedColumn("uuid")]:
    given the identifiers in use it yields one that is not among them. *)
Class UuidGen : Type := {
  uuid : list string -> string;
  uuid_fresh : forall used, ~ In (uuid used) used
}.

(* ================================================================== *)
(** ** process.env and [config/env.validation.ts] *)

Definition Env := list (string * string).

(** [process.env[k]]: [None] is [undefined]. *)
Fixpoint env_get (k : string) (e : Env) : option string :=
  match e with
  | [] => None
  | (k', v) :: e' => if String.eqb k k' then Some v else env_get k e'
  end.

Module envalid.

(** The validators used by the code: [str({ choices?, default? })] and
    [port({ default? })]. *)
Inductive spec : Type :=
| str (choices : option (list string)) (default : option string)
| port (default : option Z).

Definition is_digit (c : ascii) : bool :=
  let n := nat_of_ascii c in (48 <=? n)%nat && (n <=? 57)%nat.

Fixpoint digits_value (acc : Z) (s : string) : option Z :=
  match s with
  | EmptyString => Some acc
  | String c s' =>
      if is_digit c
      then digits_value (10 * acc + (Z.of_nat (nat_of_ascii c) - 48)) s'
      else None
  end.

(** [port]: the input coerces to a number whose decimal rendering is
    the input itself, an integer between 1 and 65535. *)
Definition parse_port (input : string) : option Z :=
  match input with
  | EmptyString => None
  | String c _ =>
      if Ascii.eqb c "0" then None
      else match digits_value 0 input with
           | Some n => if (1 <=? n) && (n <=? 65535) then Some n else None
           | None => None
           end
  end.

(** Validation of one variable: [true] when it is accepted.  An
    undefined variable is accepted only through a default; a defined
    one is parsed and, for [str], checked against the choices.  The
    empty string is a defined value. *)
Definition accepts (s : spec) (raw : option string) : bool :=
  match raw, s with
  | None, str _ (Some _) => true
  | None, str _ None => false
  | None, port (Some _) => true
  | None, port None => false
  | Some v, str None _ => true
  | Some v, str (Some cs) _ => existsb (String.eqb v) cs
  | Some v, port _ =>
      match parse_port v with Some _ => true | None => false end
  end.

(** [cleanEnv(environment, specs)]: the names of the rejected variables;
    with the default reporter a non-empty list ends the process. *)
Definition cleanEnv (environment : Env) (specs : list (string * spec))
  : list string :=
  map fst
    (filter (fun ks => negb (accepts (snd ks) (env_get (fst ks) environment)))
            specs).

End envalid.

(** [validateEnv] of [config/env.validation.ts]. *)
Definition validateEnv (e : Env) : list string :=
  envalid.cleanEnv e
    [ ("NODE_ENV", envalid.str (Some ["development"; "test"; "production"]) None);
      ("PORT", envalid.port (Some 3000));
      ("JWT_SECRET", envalid.str None None);
      ("DB_HOST", envalid.str None (Some "localhost"));
      ("DB_PORT", envalid.port (Some 5432));
      ("DB_USERNAME", envalid.str None None);
      ("DB_PASSWORD", envalid.str None None);
      ("DB_NAME", envalid.str None None) ].

(** Start-up of the application module: [middleware/error.middleware.ts]
    runs [validateEnv()] when it is imported, and the reporter exits the
    process when a variable was rejected. *)
Inductive startup_outcome : Type :=
| Started
| ExitedWith (invalid : list string).

Definition startup (e : Env) : startup_outcome :=
  match validateEnv e with
  | [] => Started
  | invalid => ExitedWith invalid
  end.

(** [process.env.JWT_SECRET || 'your-secret-key'], the secret expression
    of both [AuthService.generateToken] and the [auth] middleware. *)
Definition fallback_secret : string := "your-secret-key".

Definition jwt_secret (e : Env) : string :=
  match env_get "JWT_SECRET" e with
  | Some s => if JsString.truthy s then s else fallback_secret
  | None => fallback_secret
  end.

(* ================================================================== *)
(** ** jsonwebtoken *)

Module jwt.

(** Seconds in ['24h']. *)
Definition expiresIn : Z := 24 * 60 * 60.

(** [jwt.sign({ id: userId }, secret, { expiresIn: '24h' })] at time
    [now]. *)
Definition sign `{Jwt} (userId secret : string) (now : Z) : string :=
  let p := Token.mkPayload userId now (now + expiresIn) in
  jwt_encode p (hs256 secret p).

(** [jwt.verify(token, secret)] at time [now]: the decoded payload, or a
    thrown error for a malformed token, a signature that is not the one
    of the payload under [secret], or an expired token. *)
Definition verify `{Jwt} (token secret : string) (now : Z)
  : result Token.payload :=
  match jwt_decode token with
  | None => Throw "jwt malformed"
  | Some (p, sig) =>
      if N.eqb sig (hs256 secret p)
      then if Token.exp p <=? now then Throw "jwt expired" else Ok p
      else Throw "invalid signature"
  end.

End jwt.

(* ================================================================== *)
(** ** TypeORM: [Repository<User>] *)

Module typeorm.

(** The columns of [User] with their [select] option: only [password]
    is declared [@Column({ select: false })]. *)
Definition user_columns : list (string * bool) :=
  [ ("id", true); ("username", true); ("email", true);
    ("password", false); ("createdAt", true); ("updatedAt", true) ].

(** Whether a query loads column [c]: an explicit [select] list decides;
    without one the column's own [select] option does. *)
Definition column_selected (select : option (list string)) (c : string)
  : bool :=
  match select with
  | Some cols => existsb (String.eqb c) cols
  | None =>
      match find (fun cb => String.eqb c (fst cb)) user_columns with
      | Some (_, b) => b
      | None => false
      end
  end.

(** Hydration of a row.  Every query of the code selects the columns
    other than [password], so only that one is optional here. *)
Definition load (select : option (list string)) (r : UserRow) : User :=
  {| id := row_id r;
     username := row_username r;
     email := row_email r;
     password := if column_selected select "password"
                 then Some (row_password r) else None;
     createdAt := row_createdAt r;
     updatedAt := row_updatedAt r |}.

Inductive where_clause : Type :=
| where_id (i : string)
| where_email (e : string).

Definition matches (w : where_clause) (r : UserRow) : bool :=
  match w with
  | where_id i => String.eqb (row_id r) i
  | where_email e => String.eqb (row_email r) e
  end.

(** A query runs only when the data source is healthy. *)
Definition query {A} (q : list UserRow -> A) : M A :=
  fun db =>
    match fault db with
    | Some msg => (Throw msg, db)
    | None => (Ok (q (rows db)), db)
    end.

(** [repository.findOne({ where, select })]: the first matching row. *)
Definition findOne (w : where_clause) (select : option (list string))
  : M (option User) :=
  query (fun rs => option_map (load select) (find (matches w) rs)).

(** [repository.find()]. *)
Definition find_all : M (list User) :=
  query (fun rs => map (load None) rs).

(** [repository.create(userData)]: a new entity instance carrying the
    given properties. *)
Definition create (userData : UserData) : UserData := userData.

(** The uniqueness checks of the [username] and [email] columns. *)
Definition username_taken (u : string) (db : Db) : bool :=
  existsb (fun r => String.eqb (row_username r) u) (rows db).

Definition email_taken (e : string) (db : Db) : bool :=
  existsb (fun r => String.eqb (row_email r) e) (rows db).

(** The store after the INSERT of a new user: the generated id, and both
    timestamps set to the time of the INSERT. *)
Definition inserted `{UuidGen} (db : Db) (u e p : string) (now : Z) : Db :=
  mkDb (rows db
        ++ [mkRow (uuid (map row_id (rows db))) u e p now now])
       (fault db).

Definition not_null_violation : string :=
  "null value violates not-null constraint".
Definition unique_violation : string :=
  "duplicate key value violates unique constraint".

(** [repository.save(user)] of a new entity at time [now]: an INSERT.
    The store rejects a missing column and a duplicate username or
    email; otherwise it generates the id and both timestamps, and the
    entity that was passed in comes back with them filled in, its other
    properties, [password] included, as they were. *)
Definition save `{UuidGen} (now : Z) (user : UserData) : M User :=
  fun db =>
    match fault db with
    | Some msg => (Throw msg, db)
    | None =>
        match ud_username user, ud_email user, ud_password user with
        | Some u, Some e, Some p =>
            if username_taken u db || email_taken e db
            then (Throw unique_violation, db)
            else
              (Ok (mkUser (uuid (map row_id (rows db))) u e (Some p) now now),
               inserted db u e p now)
        | _, _, _ => (Throw not_null_violation, db)
        end
    end.

End typeorm.

(* ================================================================== *)
(** ** The two user repositories *)

(** [repositories/UserRepository.ts]. *)
Module UserRepository.

Definition create `{UuidGen} (now : Z) (userData : UserData) : M User :=
  let user := typeorm.create userData in
  typeorm.save now user.

Definition findById (id : string) : M (option User) :=
  typeorm.findOne (typeorm.where_id id) None.

Definition findByEmail (email : string) : M (option User) :=
  typeorm.findOne (typeorm.where_email email)
    (Some ["id"; "email"; "username"; "password"; "createdAt"; "updatedAt"]).

Definition findAll : M (list User) := typeorm.find_all.

End UserRepository.

(** [repositories/user.repository.ts], the near-duplicate whose singleton
    [userRepository] the auth routes import. *)
Module user_repository.

Definition findById (id : string) : M (option User) :=
  typeorm.findOne (typeorm.where_id id) None.

Definition findByEmail (email : string) : M (option User) :=
  typeorm.findOne (typeorm.where_email email)
    (Some ["id"; "email"; "username"; "password"; "createdAt"; "updatedAt"]).

Definition create `{UuidGen} (now : Z) (userData : UserData) : M User :=
  let user := typeorm.create userData in
  typeorm.save now user.

End user_repository.

(* ================================================================== *)
(** ** [services/auth.service.ts] *)

(** [{ user, token }], the value both service methods resolve to. *)
Record AuthResult : Type := mkAuthResult {
  user : User;
  token : string
}.

(** [const { password, ...userWithoutPassword } = user]. *)
Definition without_password (u : User) : User :=
  {| id := id u; username := username u; email := email u;
     password := None;
     createdAt := createdAt u; updatedAt := updatedAt u |}.

Module AuthService.

Definition invalid_credentials : string := "Invalid login credentials".

Definition generateToken `{Jwt} (env : Env) (now : Z) (userId : string)
  : string :=
  jwt.sign userId (jwt_secret env) now.

(** [register(userData)], at time [now], bcrypt drawing [salt]. *)
Definition register `{Bcrypt} `{Jwt} `{UuidGen}
    (env : Env) (now : Z) (salt : string) (userData : UserData)
  : M AuthResult :=
  match ud_password userData with
  | None => throw "data and salt arguments required"
  | Some plain =>
      let hashedPassword := bcrypt_hash plain 10 salt in
      user <- UserRepository.create now
                {| ud_username := ud_username userData;
                   ud_email := ud_email userData;
                   ud_password := Some hashedPassword |} ;;
      let userWithoutPassword := without_password user in
      let token := generateToken env now (id user) in
      ret (mkAuthResult userWithoutPassword token)
  end.

(** [login(email, password)] at time [now]; the arguments are [mail]
    and [pass]. *)
Definition login `{Bcrypt} `{Jwt}
    (env : Env) (now : Z) (mail pass : string) : M AuthResult :=
  found <- UserRepository.findByEmail mail ;;
  match found with
  | None => throw invalid_credentials
  | Some user =>
      match password user with
      | None => throw "data and hash arguments required"
      | Some hash =>
          if bcrypt_compare pass hash
          then
            let userWithoutPassword := without_password user in
            let token := generateToken env now (id user) in
            ret (mkAuthResult userWithoutPassword token)
          else throw invalid_credentials
      end
  end.

End AuthService.

(* ================================================================== *)
(** ** HTTP requests and responses *)

Record Request : Type := mkRequest {
  authorization : option string;   (* req.header('Authorization') *)
  body : UserData;                 (* req.body *)
  params_id : string               (* req.params.id *)
}.

(** A request that went through [auth]: [req.user] is set. *)
Record AuthRequest : Type := mkAuthRequest {
  request : Request;
  req_user : Token.payload
}.

Record Response : Type := mkResponse {
  status : Z;
  json_body : json
}.

(** What a route handler is to Express: it answers the request, possibly
    changing the store. *)
Definition Handler (R : Type) : Type := R -> Db -> Response * Db.

(** [{ error: message }]. *)
Definition error_body (message : string) : json :=
  JObj [("error", JStr message)].

(** [res.json(user)]: the entity's own properties; an absent [password]
    is no property at all.  Dates are kept as numbers, and the order of
    the properties is a fixed one. *)
Definition user_json (u : User) : json :=
  JObj ([ ("id", JStr (id u));
          ("username", JStr (username u));
          ("email", JStr (email u)) ]
        ++ match password u with
           | Some p => [("password", JStr p)]
           | None => []
           end
        ++ [ ("createdAt", JNum (createdAt u));
             ("updatedAt", JNum (updatedAt u)) ]).

(** [try { ... res.status(s).json(b) } catch (error) {
      res.status(code).json({ error: error.message }) }]. *)
Definition responding (code : Z) (m : M Response) : Db -> Response * Db :=
  fun db =>
    match m db with
    | (Ok r, db') => (r, db')
    | (Throw msg, db') => (mkResponse code (error_body msg), db')
    end.

(* ================================================================== *)
(** ** express-validator *)

Module express_validator.

Inductive validator : Type :=
| isString
| notEmpty
| isEmail_
| isLength (min : nat)
| exists_.

(** The validators other than [isString] and [exists] look at the
    value converted to a string, an absent one being ['']. *)
Definition toString (value : option string) : string :=
  match value with Some s => s | None => "" end.

Definition passes `{Validator} (v : validator) (value : option string)
  : bool :=
  match v with
  | isString => match value with Some _ => true | None => false end
  | notEmpty => negb (String.eqb (toString value) "")
  | isEmail_ => isEmail (toString value)
  | isLength min => (min <=? String.length (toString value))%nat
  | exists_ => match value with Some _ => true | None => false end
  end.

(** [body(field)]: the field of the request body. *)
Definition field_of (field : string) (b : UserData) : option string :=
  if String.eqb field "username" then ud_username b
  else if String.eqb field "email" then ud_email b
  else if String.eqb field "password" then ud_password b
  else None.

(** One entry of [errors.array()]. *)
Definition field_error (field : string) (value : option string) : json :=
  JObj ([ ("type", JStr "field") ]
        ++ match value with Some v => [("value", JStr v)] | None => [] end
        ++ [ ("msg", JStr "Invalid value");
             ("path", JStr field);
             ("location", JStr "body") ]).

(** A validation chain [body(field).v1().v2()...]: every validator of
    the chain runs, each failure is one error. *)
Definition run_chain `{Validator}
    (chain : string * list validator) (b : UserData) : list json :=
  let value := field_of (fst chain) b in
  map (fun _ => field_error (fst chain) value)
      (filter (fun v => negb (passes v value)) (snd chain)).

(** [validationResult(req).array()] after the chains ran. *)
Definition validationResult `{Validator}
    (chains : list (string * list validator)) (b : UserData) : list json :=
  flat_map (fun chain => run_chain chain b) chains.

Definition isEmpty (errors : list json) : bool :=
  match errors with [] => true | _ => false end.

End express_validator.

(* ================================================================== *)
(** ** [middleware/auth.middleware.ts] *)

Definition please_authenticate : Response :=
  mkResponse 401 (error_body "Please authenticate").

(** The body of the [try] block up to [jwt.verify]. *)
Definition bearer_payload `{Jwt} (env : Env) (now : Z) (req : Request)
  : result Token.payload :=
  match option_map (JsString.replace "Bearer " "") (authorization req) with
  | None => Throw ""
  | Some token =>
      if negb (JsString.truthy token) then Throw ""
      else jwt.verify token (jwt_secret env) now
  end.

(** [auth(req, res, next)]: on success [req.user = decoded; next()], on
    any throw the 401 response. *)
Definition auth `{Jwt} (env : Env) (now : Z)
    (next : Handler AuthRequest) : Handler Request :=
  fun req db =>
    match bearer_payload env now req with
    | Ok decoded => next (mkAuthRequest req decoded) db
    | Throw _ => (please_authenticate, db)
    end.

(* ================================================================== *)
(** ** [routes/auth.routes.ts] *)

Definition user_not_found : Response :=
  mkResponse 404 (error_body "User not found").

Module auth_routes.

Import express_validator.

Definition register_chains : list (string * list validator) :=
  [ ("username", [isString; notEmpty]);
    ("email", [isEmail_]);
    ("password", [isLength 6]) ].

(** [router.post('/register', ...)]. *)
Definition post_register `{Bcrypt} `{Jwt} `{Validator} `{UuidGen}
    (env : Env) (now : Z) (salt : string) : Handler Request :=
  fun req db =>
    let errors := validationResult register_chains (body req) in
    if negb (isEmpty errors)
    then (mkResponse 400 (JObj [("errors", JArr errors)]), db)
    else
      responding 400
        (r <- AuthService.register env now salt (body req) ;;
         ret (mkResponse 201
                (JObj [ ("user", user_json (user r));
                        ("token", JStr (token r)) ])))
        db.

Definition token_chains : list (string * list validator) :=
  [ ("email", [isEmail_]);
    ("password", [exists_]) ].

(** [router.post('/token', ...)].  Past the validators both fields are
    present, so the last branch is never taken. *)
Definition post_token `{Bcrypt} `{Jwt} `{Validator}
    (env : Env) (now : Z) : Handler Request :=
  fun req db =>
    let errors := validationResult token_chains (body req) in
    if negb (isEmpty errors)
    then (mkResponse 400 (JObj [("errors", JArr errors)]), db)
    else
      responding 401
        (match ud_email (body req), ud_password (body req) with
         | Some mail, Some pass =>
             r <- AuthService.login env now mail pass ;;
             ret (mkResponse 200
                    (JObj [ ("user", user_json (user r));
                            ("token", JStr (token r)) ]))
         | _, _ => throw "Cannot destructure request body"
         end)
        db.

(** The handler of [router.get('/login', auth, ...)]. *)
Definition login_handler : Handler AuthRequest :=
  fun req =>
    responding 500
      (found <- user_repository.findById (Token.id (req_user req)) ;;
       match found with
       | None => ret user_not_found
       | Some u =>
           let userWithoutPassword := without_password u in
           ret (mkResponse 200 (user_json userWithoutPassword))
       end).

Definition get_login `{Jwt} (env : Env) (now : Z) : Handler Request :=
  auth env now login_handler.

End auth_routes.

(* ================================================================== *)
(** ** [routes/user.routes.ts] *)

Module user_routes.

(** The handler of [router.get('/login', auth, ...)]. *)
Definition login_handler : Handler AuthRequest :=
  fun req =>
    responding 400
      (found <- UserRepository.findById (Token.id (req_user req)) ;;
       match found with
       | None => ret user_not_found
       | Some u =>
           let userWithoutPassword := without_password u in
           ret (mkResponse 200 (user_json userWithoutPassword))
       end).

Definition get_login `{Jwt} (env : Env) (now : Z) : Handler Request :=
  auth env now login_handler.

(** [router.post('/', ...)]. *)
Definition post_user `{UuidGen} (now : Z) : Handler Request :=
  fun req =>
    responding 400
      (u <- UserRepository.create now (body req) ;;
       ret (mkResponse 201 (user_json u))).

(** [router.get('/:id', ...)]. *)
Definition get_user : Handler Request :=
  fun req =>
    responding 400
      (found <- UserRepository.findById (params_id req) ;;
       match found with
       | None => ret user_not_found
       | Some u => ret (mkResponse 200 (user_json u))
       end).

End user_routes.

(* ================================================================== *)
(** ** Reference implementations of the package interfaces

    Small executable stand-ins that satisfy the contracts above; the
    concrete scenarios at the end of the file run the handlers on them. *)

Module Reference.

(** A salted digest that keeps the plaintext readable: enough for the
    contract of [bcrypt_compare]. *)
Definition hash (data : string) (rounds : nat) (salt : string) : string :=
  ("$ref$" ++ data ++ "$") ++ salt.

Definition compare (data encrypted : string) : bool :=
  match JsString.strip_prefix ("$ref$" ++ data ++ "$") encrypted with
  | Some _ => true
  | None => false
  end.

(** Self-delimiting binary numerals, least significant bit first. *)
Fixpoint enc_pos (p : positive) : string :=
  match p with
  | xH => "."
  | xO q => String "0" (enc_pos q)
  | xI q => String "1" (enc_pos q)
  end.

Fixpoint dec_pos (s : string) : option (positive * string) :=
  match s with
  | EmptyString => None
  | String c s' =>
      if Ascii.eqb c "." then Some (xH, s')
      else if Ascii.eqb c "0" then
        match dec_pos s' with Some (q, r) => Some (xO q, r) | None => None end
      else if Ascii.eqb c "1" then
        match dec_pos s' with Some (q, r) => Some (xI q, r) | None => None end
      else None
  end.

Definition enc_Z (z : Z) : string :=
  match z with
  | Z0 => "z"
  | Zpos p => String "p" (enc_pos p)
  | Zneg p => String "n" (enc_pos p)
  end.

Definition dec_Z (s : string) : option (Z * string) :=
  match s with
  | EmptyString => None
  | String c s' =>
      if Ascii.eqb c "z" then Some (0, s')
      else if Ascii.eqb c "p" then
        match dec_pos s' with Some (q, r) => Some (Zpos q, r) | None => None end
      else if Ascii.eqb c "n" then
        match dec_pos s' with Some (q, r) => Some (Zneg q, r) | None => None end
      else None
  end.

(** signature, iat, exp, then the user id up to the end. *)
Definition encode (p : Token.payload) (sig : N) : string :=
  enc_Z (Z.of_N sig) ++ enc_Z (Token.iat p) ++ enc_Z (Token.exp p)
  ++ Token.id p.

Definition decode (s : string) : option (Token.payload * N) :=
  match dec_Z s with
  | Some (sig, s1) =>
      if sig <? 0 then None
      else
        match dec_Z s1 with
        | Some (i, s2) =>
            match dec_Z s2 with
            | Some (e, s3) => Some (Token.mkPayload s3 i e, Z.to_N sig)
            | None => None
            end
        | None => None
        end
  | None => None
  end.

(** A keyed checksum in place of HMAC-SHA256. *)
Definition mac (secret : string) (p : Token.payload) : N :=
  N.of_nat (String.length secret) * 1000003
  + N.of_nat (String.length (Token.id p)) * 101
  + Z.to_N (Token.iat p) + 7 * Z.to_N (Token.exp p).

Fixpoint has_at (s : string) : bool :=
  match s with
  | EmptyString => false
  | String c s' => Ascii.eqb c "@" || has_at s'
  end.

Fixpoint replicate (n : nat) (c : ascii) : string :=
  match n with
  | O => EmptyString
  | S n' => String c (replicate n' c)
  end.

Definition max_length (l : list string) : nat :=
  fold_right (fun s m => Nat.max (String.length s) m) 0%nat l.

(** An identifier longer than every identifier in use. *)
Definition fresh (used : list string) : string :=
  replicate (S (max_length used)) "u".

End Reference.

(* ================================================================== *)
(** ** Keys of the user table *)

(** No string occurs twice. *)
Fixpoint distinct (l : list string) : bool :=
  match l with
  | [] => true
  | x :: l' => negb (existsb (String.eqb x) l') && distinct l'
  end.

(** The primary key and the two [unique: true] columns of [User] hold
    pairwise different values. *)
Definition unique_keys (db : Db) : bool :=
  distinct (map row_id (rows db))
  && distinct (map row_username (rows db))
  && distinct (map row_email (rows db)).

(** [occurs pat s]: the string [pat] occurs somewhere in [s]. *)
Fixpoint occurs (pat s : string) : bool :=
  match JsString.strip_prefix pat s with
  | Some _ => true
  | None =>
      match s with
      | EmptyString => false
      | String _ s' => occurs pat s'
      end
  end.



(** [body[k]] of a JSON response body: the property [k] of an object. *)
Definition property (k : string) (j : json) : option json :=
  match j with
  | JObj fields =>
      option_map snd (find (fun kv => String.eqb k (fst kv)) fields)
  | _ => None
  end.

(* ================================================================== *)
(** ** The DataPoint entity and [repositories/DataPointRepository.ts] *)

(** A row of the [data_point] table; [metadata] is the only nullable
    column, [value] is a double. *)
Record DataPointRow : Type := mkPointRow {
  point_id : string;
  point_userId : string;
  point_value : float;
  point_timestamp : Z;
  point_category : string;
  point_metadata : option json
}.

(** An instance of the entity class [DataPoint]; [dp_user] is the [user]
    relation, present when the query joined it. *)
Record DataPoint : Type := mkDataPoint {
  dp_id : string;
  dp_userId : string;
  dp_value : float;
  dp_timestamp : Z;
  dp_category : string;
  dp_metadata : option json;
  dp_user : option User
}.

(** [Partial<DataPoint>] as a caller builds it: the columns the store does
    not generate. *)
Record DataPointData : Type := mkPointData {
  pd_userId : option string;
  pd_value : option float;
  pd_category : option string;
  pd_metadata : option json
}.

(** Both tables behind the one [AppDataSource]. *)
Record Store : Type := mkStore {
  users : Db;
  points : list DataPointRow
}.

Module DataPointRepository.

(** Hydration of a row under [relations: ['user']]: the owner is joined
    through [userId] and loaded like any [User], without the
    [select: false] column. *)
Definition load (us : list UserRow) (r : DataPointRow) : DataPoint :=
  {| dp_id := point_id r;
     dp_userId := point_userId r;
     dp_value := point_value r;
     dp_timestamp := point_timestamp r;
     dp_category := point_category r;
     dp_metadata := point_metadata r;
     dp_user := option_map (typeorm.load None)
                  (find (typeorm.matches (typeorm.where_id (point_userId r)))
                        us) |}.

(** A query over both tables; it runs only when the data source is
    healthy. *)
Definition query {A} (q : list UserRow -> list DataPointRow -> A)
  : Store -> result A * Store :=
  fun st =>
    match fault (users st) with
    | Some msg => (Throw msg, st)
    | None => (Ok (q (rows (users st)) (points st)), st)
    end.


Definition findById (id : string) : Store -> result (option DataPoint) * Store :=
  query (fun us ps =>
           option_map (load us)
             (find (fun r => String.eqb (point_id r) id) ps)).



Definition foreign_key_violation : string :=
  "insert or update violates foreign key constraint".

(** [create(dataPointData)] at time [now]: [repository.create] then
    [save], an INSERT.  The store rejects a missing [userId], [value] or
    [category] and a [userId] that is no user's id; otherwise it
    generates the id and the timestamp and the entity comes back with
    them, its [user] relation not loaded. *)
Definition create `{UuidGen} (now : Z) (d : DataPointData)
  : Store -> result DataPoint * Store :=
  fun st =>
    match fault (users st) with
    | Some msg => (Throw msg, st)
    | None =>
        match pd_userId d, pd_value d, pd_category d with
        | Some u, Some v, Some c =>
            if existsb (fun r => String.eqb (row_id r) u) (rows (users st))
            then
              let i := uuid (map point_id (points st)) in
              (Ok (mkDataPoint i u v now c (pd_metadata d) None),
               mkStore (users st)
                 (points st ++ [mkPointRow i u v now c (pd_metadata d)]))
            else (Throw foreign_key_violation, st)
        | _, _, _ => (Throw typeorm.not_null_violation, st)
        end
    end.

End DataPointRepository.

(* ================================================================== *)
(** ** Scenario data

    The environment of [__tests__/setup.ts], the registration of the
    specification's scenario, and the stores and requests the concrete
    runs at the end of the file use. *)

Definition env_test : Env :=
  [ ("NODE_ENV", "test"); ("PORT", "3001"); ("DB_HOST", "localhost");
    ("DB_PORT", "5432"); ("DB_USERNAME", "yaver_test");
    ("DB_PASSWORD", "yaver_test"); ("DB_NAME", "yaver_test_db");
    ("JWT_SECRET", "test-jwt-secret-key") ].

(** The same deployment with [JWT_SECRET=] left empty, and with the
    variable not set at all. *)
Definition env_empty_secret : Env :=
  [ ("NODE_ENV", "production"); ("PORT", "3001"); ("DB_HOST", "localhost");
    ("DB_PORT", "5432"); ("DB_USERNAME", "yaver"); ("DB_PASSWORD", "yaver");
    ("DB_NAME", "yaver_db"); ("JWT_SECRET", "") ].

Definition env_no_secret : Env :=
  [ ("NODE_ENV", "production"); ("PORT", "3001"); ("DB_HOST", "localhost");
    ("DB_PORT", "5432"); ("DB_USERNAME", "yaver"); ("DB_PASSWORD", "yaver");
    ("DB_NAME", "yaver_db") ].

Definition empty_db : Db := mkDb [] None.

Definition alice : UserData :=
  mkData (Some "alice") (Some "a@x.com") (Some "secret1").

Definition row_alice : UserRow :=
  mkRow "u" "alice" "a@x.com" (Reference.hash "secret1" 10 "salt") 1000 1000.

(** The store after alice registered at time 1000. *)
Definition db_alice : Db := mkDb [row_alice] None.

Definition db_down : Db :=
  mkDb [row_alice] (Some "Connection terminated unexpectedly").

Definition post (b : UserData) : Request := mkRequest None b "".

Definition get_with (header : string) : Request :=
  mkRequest (Some header) (mkData None None None) "".

Definition get_plain : Request :=
  mkRequest None (mkData None None None) "".

(** A token whose signature field was overwritten with 0. *)
Definition forged : string :=
  Reference.encode (Token.mkPayload "u" 1000 87400) 0.

Definition bob : UserData :=
  mkData (Some "bob") (Some "b@x.com") (Some "hunter2").




(* ================================================================== *)
(** * Properties *)

Unset Implicit Arguments.

(** ** Strings *)

Lemma strip_prefix_app (p s : string) :
  JsString.strip_prefix p (p ++ s) = Some s.
Proof.
  induction p as [|a p IH]; simpl.
  - reflexivity.
  - now rewrite Ascii.eqb_refl.
Qed.

Lemma replace_leading (pat rep s : string) :
  JsString.replace pat rep (pat ++ s) = rep ++ s.
Proof.
  destruct (pat ++ s) eqn:E.
  - destruct pat; simpl in E; [subst s; reflexivity | discriminate].
  - rewrite <- E. unfold JsString.replace.
    rewrite E. fold JsString.replace. rewrite <- E.
    now rewrite strip_prefix_app.
Qed.

Lemma truthy_iff (s : string) : JsString.truthy s = true <-> s <> "".
Proof.
  unfold JsString.truthy. rewrite negb_true_iff.
  split; intro H.
  - intros ->. discriminate.
  - now apply String.eqb_neq.
Qed.

(** ** Evaluation of the store monad *)

Ltac run_store :=
  unfold responding, bind, ret, throw,
    UserRepository.findById, user_repository.findById,
    UserRepository.findByEmail, user_repository.findByEmail,
    UserRepository.findAll, UserRepository.create, user_repository.create,
    typeorm.findOne, typeorm.find_all, typeorm.query, typeorm.create,
    typeorm.save in *.

Lemma without_password_load (r : UserRow) :
  without_password (typeorm.load None r) = typeorm.load None r.
Proof. reflexivity. Qed.

Lemma find_matches_id (i : string) (rs : list UserRow) (r : UserRow) :
  find (typeorm.matches (typeorm.where_id i)) rs = Some r -> row_id r = i.
Proof.
  intros E. apply find_some in E as [_ E]. now apply String.eqb_eq in E.
Qed.

Lemma find_matches_email (e : string) (rs : list UserRow) (r : UserRow) :
  find (typeorm.matches (typeorm.where_email e)) rs = Some r ->
  In r rs /\ row_email r = e.
Proof.
  intros E. apply find_some in E as [I E]. split; [assumption|].
  now apply String.eqb_eq in E.
Qed.

Lemma find_first_of_in (w : typeorm.where_clause) (rs : list UserRow)
    (r : UserRow) :
  In r rs -> typeorm.matches w r = true ->
  exists r', find (typeorm.matches w) rs = Some r'.
Proof.
  intros I E. destruct (find (typeorm.matches w) rs) eqn:F; [eauto|].
  eapply find_none in F; [|exact I]. congruence.
Qed.

Lemma find_app_last {A} (f : A -> bool) (l : list A) (x : A) :
  existsb f l = false -> f x = true -> find f (l ++ [x]) = Some x.
Proof.
  intros N T. induction l as [|a l IH]; simpl in *.
  - now rewrite T.
  - apply orb_false_iff in N as [N1 N2]. rewrite N1. now apply IH.
Qed.

Section Contracts.

Context {B : Bcrypt} {J : Jwt} {V : Validator} {G : UuidGen}.

(** ** Tokens *)

Lemma verify_sign (userId secret : string) (issued now : Z) :
  now < issued + jwt.expiresIn ->
  jwt.verify (jwt.sign userId secret issued) secret now
  = Ok (Token.mkPayload userId issued (issued + jwt.expiresIn)).
Proof.
  intros Hlt. unfold jwt.verify, jwt.sign.
  rewrite jwt_decode_encode, N.eqb_refl. simpl Token.exp.
  destruct (issued + jwt.expiresIn <=? now) eqn:E; [|reflexivity].
  apply Z.leb_le in E. lia.
Qed.

Lemma verify_expired (userId secret : string) (issued now : Z) :
  issued + jwt.expiresIn <= now ->
  jwt.verify (jwt.sign userId secret issued) secret now = Throw "jwt expired".
Proof.
  intros Hle. unfold jwt.verify, jwt.sign.
  rewrite jwt_decode_encode, N.eqb_refl. simpl Token.exp.
  apply Z.leb_le in Hle. now rewrite Hle.
Qed.

Lemma verify_tampered (tok secret : string) (p : Token.payload) (sig : N)
    (now : Z) :
  jwt_decode tok = Some (p, sig) -> sig <> hs256 secret p ->
  jwt.verify tok secret now = Throw "invalid signature".
Proof.
  intros D N. unfold jwt.verify. rewrite D.
  apply N.eqb_neq in N. now rewrite N.
Qed.

Lemma sign_nonempty (userId secret : string) (now : Z) :
  jwt.sign userId secret now <> "".
Proof. apply jwt_encode_nonempty. Qed.

Lemma bearer_payload_of_header (env : Env) (now : Z) (req : Request)
    (tok : string) :
  authorization req = Some ("Bearer " ++ tok) -> tok <> "" ->
  bearer_payload env now req = jwt.verify tok (jwt_secret env) now.
Proof.
  intros A N. unfold bearer_payload. rewrite A. cbn [option_map].
  rewrite replace_leading. cbn [append].
  apply truthy_iff in N. now rewrite N.
Qed.

Lemma bearer_payload_empty (env : Env) (now : Z) (req : Request) :
  authorization req = Some "Bearer " -> bearer_payload env now req = Throw "".
Proof. intros A. unfold bearer_payload. now rewrite A. Qed.

(** C7.  The [auth] middleware over one request: without an Authorization
    header, with a header that leaves an empty token, or with a token that
    [jwt.verify] rejects, the answer is 401 [Please authenticate], the
    store is untouched and the answer does not depend on the handler
    [next], which is therefore not run; with a token that verifies, the
    decoded payload (the user id) becomes [req.user] and the request is
    handed to [next]. *)
Theorem auth_state_machine (env : Env) (now : Z) (req : Request)
    (next : Handler AuthRequest) (db : Db) :
  (authorization req = None ->
   auth env now next req db = (please_authenticate, db))
  /\
  (forall header,
     authorization req = Some header ->
     JsString.replace "Bearer " "" header = "" ->
     auth env now next req db = (please_authenticate, db))
  /\
  (forall header msg,
     authorization req = Some header ->
     jwt.verify (JsString.replace "Bearer " "" header) (jwt_secret env) now
     = Throw msg ->
     auth env now next req db = (please_authenticate, db))
  /\
  (forall header decoded,
     authorization req = Some header ->
     JsString.replace "Bearer " "" header <> "" ->
     jwt.verify (JsString.replace "Bearer " "" header) (jwt_secret env) now
     = Ok decoded ->
     auth env now next req db = next (mkAuthRequest req decoded) db
     /\ Token.id (req_user (mkAuthRequest req decoded)) = Token.id decoded).
Proof.
  unfold auth, bearer_payload.
  split; [|split; [|split]].
  - intros ->. reflexivity.
  - intros header -> E. simpl. rewrite E. reflexivity.
  - intros header msg -> E. simpl.
    destruct (JsString.truthy _); simpl; [now rewrite E | reflexivity].
  - intros header decoded -> N E. simpl.
    apply truthy_iff in N. rewrite N. simpl. rewrite E. now split.
Qed.

(** ** Protected routes *)

Lemma login_handlers_found (req : AuthRequest) (db : Db) (row : UserRow) :
  fault db = None ->
  find (typeorm.matches (typeorm.where_id (Token.id (req_user req)))) (rows db)
  = Some row ->
  auth_routes.login_handler req db
  = (mkResponse 200 (user_json (typeorm.load None row)), db)
  /\ user_routes.login_handler req db
     = (mkResponse 200 (user_json (typeorm.load None row)), db).
Proof.
  intros F E.
  unfold auth_routes.login_handler, user_routes.login_handler. run_store.
  rewrite F, E. simpl. now rewrite without_password_load.
Qed.

Lemma get_login_rejects (env : Env) (now : Z) (req : Request) (db : Db)
    (msg : string) :
  bearer_payload env now req = Throw msg ->
  auth_routes.get_login env now req db = (please_authenticate, db)
  /\ user_routes.get_login env now req db = (please_authenticate, db).
Proof.
  intros E. unfold auth_routes.get_login, user_routes.get_login, auth.
  now rewrite E.
Qed.

(** C4, as amended.  A token issued for user id [U] and presented as the
    bearer token before it expires (less than 24 hours after it was
    issued) verifies on both protected routes, and the answer is 200 with
    the record the store holds under [U], read without the password
    column.  A token whose signature is not the one of its payload under
    the server secret is answered 401 on both routes. *)
Theorem bearer_token_resolution (env : Env) (now : Z) (db : Db) :
  (forall (U : string) (row : UserRow) (issued : Z) (req : Request),
     fault db = None ->
     find (typeorm.matches (typeorm.where_id U)) (rows db) = Some row ->
     now < issued + jwt.expiresIn ->
     authorization req
     = Some ("Bearer " ++ AuthService.generateToken env issued U) ->
     row_id row = U
     /\ auth_routes.get_login env now req db
        = (mkResponse 200 (user_json (typeorm.load None row)), db)
     /\ user_routes.get_login env now req db
        = (mkResponse 200 (user_json (typeorm.load None row)), db))
  /\
  (forall (tok : string) (p : Token.payload) (sig : N) (req : Request),
     authorization req = Some ("Bearer " ++ tok) ->
     jwt_decode tok = Some (p, sig) ->
     sig <> hs256 (jwt_secret env) p ->
     auth_routes.get_login env now req db = (please_authenticate, db)
     /\ user_routes.get_login env now req db = (please_authenticate, db)).
Proof.
  split.
  - intros U row issued req F E T A.
    split; [now apply find_matches_id in E|].
    assert (P : bearer_payload env now req
                = Ok (Token.mkPayload U issued (issued + jwt.expiresIn))).
    { erewrite bearer_payload_of_header; [|exact A|apply sign_nonempty].
      now apply verify_sign. }
    unfold auth_routes.get_login, user_routes.get_login, auth. rewrite P.
    now apply login_handlers_found.
  - intros tok p sig req A D N.
    destruct (string_dec tok "") as [->|NE].
    + eapply get_login_rejects. now apply bearer_payload_empty.
    + eapply get_login_rejects.
      erewrite bearer_payload_of_header; [|exact A|exact NE].
      eapply verify_tampered; eassumption.
Qed.

(** The rejection of an expired token, which the claim as written leaves
    out of account. *)
Lemma expired_token_rejected (env : Env) (issued now : Z) (U : string)
    (req : Request) (db : Db) :
  issued + jwt.expiresIn <= now ->
  authorization req
  = Some ("Bearer " ++ AuthService.generateToken env issued U) ->
  auth_routes.get_login env now req db = (please_authenticate, db)
  /\ user_routes.get_login env now req db = (please_authenticate, db).
Proof.
  intros T A. eapply get_login_rejects.
  erewrite bearer_payload_of_header; [|exact A|apply sign_nonempty].
  now apply verify_expired.
Qed.


(** ** The user store *)

(** C9.  On a healthy store, for every stored row: [findById] under the
    row's id and [findAll] return entities without the [password]
    property, in both repositories; [findByEmail] under the row's email
    returns an entity whose [password] is the stored hash of the row it
    matched. *)
Theorem reads_and_the_password_column (db : Db) (row : UserRow) :
  fault db = None ->
  In row (rows db) ->
  (exists r, UserRepository.findById (row_id row) db
             = (Ok (Some (typeorm.load None r)), db)
             /\ user_repository.findById (row_id row) db
                = (Ok (Some (typeorm.load None r)), db)
             /\ In r (rows db) /\ row_id r = row_id row
             /\ password (typeorm.load None r) = None)
  /\
  (exists us, UserRepository.findAll db = (Ok us, db)
              /\ length us = length (rows db)
              /\ Forall (fun u => password u = None) us)
  /\
  (exists r u, UserRepository.findByEmail (row_email row) db = (Ok (Some u), db)
               /\ user_repository.findByEmail (row_email row) db
                  = (Ok (Some u), db)
               /\ In r (rows db) /\ row_email r = row_email row
               /\ id u = row_id r
               /\ password u = Some (row_password r)).
Proof.
  intros F I. run_store. rewrite F.
  split; [|split].
  - destruct (find_first_of_in (typeorm.where_id (row_id row)) _ _ I)
      as [r E]; [apply String.eqb_refl|].
    exists r. rewrite E. simpl.
    pose proof (find_some _ _ E) as [Ir Er]. apply String.eqb_eq in Er.
    now repeat split.
  - exists (map (typeorm.load None) (rows db)).
    split; [reflexivity|]. split; [apply length_map|].
    apply Forall_forall. intros u Hu. apply in_map_iff in Hu as [r [<- _]].
    reflexivity.
  - destruct (find_first_of_in (typeorm.where_email (row_email row)) _ _ I)
      as [r E]; [apply String.eqb_refl|].
    apply find_matches_email in E as E'. destruct E' as [Ir Er].
    eexists r, _. rewrite E. simpl. now repeat split.
Qed.

(** ** Validation *)

Ltac run_validators :=
  unfold express_validator.validationResult, express_validator.run_chain,
    auth_routes.register_chains, auth_routes.token_chains;
  cbn [flat_map fst snd filter express_validator.passes];
  repeat match goal with
    | |- context [express_validator.field_of ?f ?b] =>
        let r := eval cbv beta iota delta
                   [express_validator.field_of String.eqb Ascii.eqb
                    Bool.eqb andb]
                 in (express_validator.field_of f b) in
        change (express_validator.field_of f b) with r
    end.

Lemma token_validation_passes (b : UserData) (e p : string) :
  ud_email b = Some e -> ud_password b = Some p -> isEmail e = true ->
  express_validator.validationResult auth_routes.token_chains b = [].
Proof.
  intros E P M. run_validators.
  rewrite E, P. simpl. rewrite M. reflexivity.
Qed.

(** Past the validators of POST /token both fields are present. *)
Lemma token_fields_present (b : UserData) :
  express_validator.validationResult auth_routes.token_chains b = [] ->
  exists e p, ud_email b = Some e /\ ud_password b = Some p
              /\ isEmail e = true.
Proof.
  intros R. revert R. run_validators. intros R.
  destruct (ud_email b) as [e|], (ud_password b) as [p|]; simpl in R.
  - destruct (isEmail e) eqn:M; [eauto | discriminate].
  - destruct (isEmail e); discriminate.
  - rewrite isEmail_empty in R. discriminate.
  - rewrite isEmail_empty in R. discriminate.
Qed.



(** ** Login *)

Lemma login_unknown_email (env : Env) (now : Z) (e p : string) (db : Db) :
  find (typeorm.matches (typeorm.where_email e)) (rows db) = None ->
  AuthService.login env now e p db
  = (Throw (match fault db with
            | Some msg => msg
            | None => AuthService.invalid_credentials
            end), db).
Proof.
  intros E. unfold AuthService.login. run_store.
  destruct (fault db); [reflexivity|]. now rewrite E.
Qed.

Lemma login_wrong_password (env : Env) (now : Z) (e p : string) (db : Db)
    (row : UserRow) :
  find (typeorm.matches (typeorm.where_email e)) (rows db) = Some row ->
  bcrypt_compare p (row_password row) = false ->
  AuthService.login env now e p db
  = (Throw (match fault db with
            | Some msg => msg
            | None => AuthService.invalid_credentials
            end), db).
Proof.
  intros E C. unfold AuthService.login. run_store.
  destruct (fault db); [reflexivity|]. rewrite E. simpl. now rewrite C.
Qed.

Lemma login_right_password (env : Env) (now : Z) (e p : string) (db : Db)
    (row : UserRow) :
  fault db = None ->
  find (typeorm.matches (typeorm.where_email e)) (rows db) = Some row ->
  bcrypt_compare p (row_password row) = true ->
  AuthService.login env now e p db
  = (Ok (mkAuthResult (typeorm.load None row)
           (AuthService.generateToken env now (row_id row))), db).
Proof.
  intros F E C. unfold AuthService.login. run_store.
  rewrite F, E. simpl. now rewrite C.
Qed.

Lemma post_token_after_validation (env : Env) (now : Z) (req : Request)
    (e p : string) (db : Db) :
  ud_email (body req) = Some e -> ud_password (body req) = Some p ->
  isEmail e = true ->
  auth_routes.post_token env now req db
  = responding 401
      (r <- AuthService.login env now e p ;;
       ret (mkResponse 200
              (JObj [ ("user", user_json (user r));
                      ("token", JStr (token r)) ]))) db.
Proof.
  intros E P M. unfold auth_routes.post_token.
  rewrite (token_validation_passes _ e p E P M). simpl. now rewrite E, P.
Qed.


(** ** Creating users *)

Lemma create_succeeds (now : Z) (u e p : string) (db : Db) :
  fault db = None ->
  typeorm.username_taken u db = false -> typeorm.email_taken e db = false ->
  UserRepository.create now (mkData (Some u) (Some e) (Some p)) db
  = (Ok (mkUser (uuid (map row_id (rows db))) u e (Some p) now now),
     typeorm.inserted db u e p now).
Proof.
  intros F NU NE. run_store.
  rewrite F. cbn [ud_username ud_email ud_password]. now rewrite NU, NE.
Qed.

Lemma create_duplicate (now : Z) (u e p : string) (db : Db) :
  fault db = None ->
  typeorm.username_taken u db || typeorm.email_taken e db = true ->
  UserRepository.create now (mkData (Some u) (Some e) (Some p)) db
  = (Throw typeorm.unique_violation, db).
Proof.
  intros F T. run_store.
  rewrite F. cbn [ud_username ud_email ud_password]. now rewrite T.
Qed.

(** Whatever the request, a creation that is answered 201 went through
    the INSERT. *)
Lemma create_inversion (now : Z) (d : UserData) (db db' : Db) (usr : User) :
  UserRepository.create now d db = (Ok usr, db') ->
  exists u e p,
    d = mkData (Some u) (Some e) (Some p)
    /\ fault db = None
    /\ typeorm.username_taken u db = false /\ typeorm.email_taken e db = false
    /\ usr = mkUser (uuid (map row_id (rows db))) u e (Some p) now now
    /\ db' = typeorm.inserted db u e p now.
Proof.
  run_store.
  destruct d as [[u|] [e|] [p|]]; cbn [ud_username ud_email ud_password];
    destruct (fault db) eqn:F; try discriminate.
  destruct (typeorm.username_taken u db) eqn:NU; [discriminate|].
  destruct (typeorm.email_taken e db) eqn:NE; [discriminate|].
  cbn [orb]. intros [= <- <-]. exists u, e, p. now repeat split.
Qed.

Lemma find_email_inserted (db : Db) (u e p : string) (now : Z) :
  typeorm.email_taken e db = false ->
  find (typeorm.matches (typeorm.where_email e))
       (rows (typeorm.inserted db u e p now))
  = Some (mkRow (uuid (map row_id (rows db))) u e p now now).
Proof.
  unfold typeorm.email_taken, typeorm.inserted. cbn [rows]. intros NE.
  apply find_app_last.
  - exact NE.
  - apply String.eqb_refl.
Qed.

(** C2, at the failing input.  POST /api/users with the body
    [{ username: 'bob', email: 'b@x.com', password: 'hunter2' }] on an
    empty, healthy store is answered 201 with the saved entity as it came
    back from [save]: the JSON body carries the property [password] with
    the value that was sent. *)
Theorem post_user_exposes_password (now : Z) :
  let req := mkRequest None
               (mkData (Some "bob") (Some "b@x.com") (Some "hunter2")) "" in
  let response := fst (user_routes.post_user now req (mkDb [] None)) in
  status response = 201
  /\ json_body response
     = JObj [ ("id", JStr (uuid []));
              ("username", JStr "bob");
              ("email", JStr "b@x.com");
              ("password", JStr "hunter2");
              ("createdAt", JNum now);
              ("updatedAt", JNum now) ]
  /\ mentions "password" (json_body response) = true.
Proof. cbv zeta. unfold user_routes.post_user. run_store. now simpl. Qed.

(** The sibling handlers that do strip it: the answers of both protected
    login routes and of GET /api/users/:id never mention [password]. *)
Lemma sibling_handlers_hide_password (areq : AuthRequest) (req : Request)
    (db : Db) :
  mentions "password" (json_body (fst (auth_routes.login_handler areq db)))
  = false
  /\ mentions "password" (json_body (fst (user_routes.login_handler areq db)))
     = false
  /\ mentions "password" (json_body (fst (user_routes.get_user req db)))
     = false.
Proof.
  unfold auth_routes.login_handler, user_routes.login_handler,
    user_routes.get_user. run_store.
  destruct (fault db); [now repeat split|].
  repeat split; destruct (find _ (rows db)); reflexivity.
Qed.

(** ** Registration *)

Lemma register_validated (b : UserData) (u e p : string) :
  b = mkData (Some u) (Some e) (Some p) ->
  express_validator.validationResult auth_routes.register_chains b = [] ->
  u <> "" /\ isEmail e = true /\ (6 <= String.length p)%nat.
Proof.
  intros -> R. revert R. run_validators.
  cbn [ud_username ud_email ud_password express_validator.toString].
  destruct (String.eqb u "") eqn:N; [discriminate|].
  destruct (isEmail e) eqn:M; [|discriminate].
  destruct (6 <=? String.length p)%nat eqn:L; [|discriminate].
  intros _. split; [now apply String.eqb_neq|].
  split; [reflexivity|now apply Nat.leb_le].
Qed.

Lemma register_succeeds (env : Env) (now : Z) (salt u e p : string)
    (db : Db) :
  fault db = None ->
  typeorm.username_taken u db = false -> typeorm.email_taken e db = false ->
  AuthService.register env now salt (mkData (Some u) (Some e) (Some p)) db
  = (Ok (mkAuthResult
           (mkUser (uuid (map row_id (rows db))) u e None now now)
           (AuthService.generateToken env now (uuid (map row_id (rows db))))),
     typeorm.inserted db u e (bcrypt_hash p 10 salt) now).
Proof.
  intros F NU NE. unfold AuthService.register. cbn [ud_password].
  unfold bind. cbn [ud_username ud_email].
  now rewrite (create_succeeds now u e _ db F NU NE).
Qed.

(** C5, as amended.  A registration input that passes the validators and
    whose username and email are not yet taken, on a healthy store, is
    answered 201 with [{ user, token }]; the user object has no
    [password] property and the body does not mention one.  Afterwards
    POST /api/auth/token with the same email and password is answered 200
    with that user and a token for its id. *)
Theorem register_then_login (env : Env) (now later : Z) (salt : string)
    (req req2 : Request) (db : Db) (u e p : string) :
  body req = mkData (Some u) (Some e) (Some p) ->
  express_validator.validationResult auth_routes.register_chains (body req)
  = [] ->
  fault db = None ->
  typeorm.username_taken u db = false -> typeorm.email_taken e db = false ->
  ud_email (body req2) = Some e -> ud_password (body req2) = Some p ->
  exists usr db',
    auth_routes.post_register env now salt req db
    = (mkResponse 201
         (JObj [ ("user", user_json usr);
                 ("token", JStr (AuthService.generateToken env now (id usr))) ]),
       db')
    /\ username usr = u /\ email usr = e /\ password usr = None
    /\ mentions "password"
         (json_body (fst (auth_routes.post_register env now salt req db)))
       = false
    /\ auth_routes.post_token env later req2 db'
       = (mkResponse 200
            (JObj [ ("user", user_json usr);
                    ("token",
                     JStr (AuthService.generateToken env later (id usr))) ]),
          db').
Proof.
  intros Hb Hv F NU NE E2 P2.
  destruct (register_validated _ u e p Hb Hv) as [_ [M _]].
  exists (mkUser (uuid (map row_id (rows db))) u e None now now),
         (typeorm.inserted db u e (bcrypt_hash p 10 salt) now).
  assert (R : auth_routes.post_register env now salt req db
              = (mkResponse 201
                   (JObj [ ("user",
                            user_json (mkUser (uuid (map row_id (rows db)))
                                         u e None now now));
                           ("token",
                            JStr (AuthService.generateToken env now
                                    (uuid (map row_id (rows db))))) ]),
                 typeorm.inserted db u e (bcrypt_hash p 10 salt) now)).
  { unfold auth_routes.post_register. rewrite Hv. cbn [negb
      express_validator.isEmpty]. rewrite Hb. unfold responding, bind.
    now rewrite (register_succeeds env now salt u e p db F NU NE). }
  rewrite R. repeat split.
  rewrite (post_token_after_validation env later req2 e p _ E2 P2 M).
  unfold responding, bind.
  rewrite (login_right_password env later e p _ _
             (F : fault (typeorm.inserted db u e _ now) = None)
             (find_email_inserted db u e _ now NE)
             (bcrypt_compare_hash p 10 salt)).
  reflexivity.
Qed.

(** A second registration of the same input is refused by the unique
    columns. *)
Lemma register_duplicate (env : Env) (now : Z) (salt : string)
    (req : Request) (db : Db) (u e p : string) :
  body req = mkData (Some u) (Some e) (Some p) ->
  express_validator.validationResult auth_routes.register_chains (body req)
  = [] ->
  fault db = None ->
  typeorm.username_taken u db || typeorm.email_taken e db = true ->
  auth_routes.post_register env now salt req db
  = (mkResponse 400 (error_body typeorm.unique_violation), db).
Proof.
  intros Hb Hv F T. unfold auth_routes.post_register. rewrite Hv.
  cbn [negb express_validator.isEmpty]. rewrite Hb.
  unfold responding, bind, AuthService.register. cbn [ud_password].
  unfold bind. cbn [ud_username ud_email].
  now rewrite (create_duplicate now u e _ db F T).
Qed.

(** ** The handlers of the auth routes never send a password *)

Lemma errors_hide_password
    (chains : list (string * list express_validator.validator))
    (b : UserData) :
  existsb (mentions "password")
    (express_validator.validationResult chains b) = false.
Proof.
  unfold express_validator.validationResult.
  induction chains as [|[field vs] chains IH]; [reflexivity|].
  cbn [flat_map]. rewrite existsb_app, IH, orb_false_r.
  unfold express_validator.run_chain. cbn [fst snd].
  induction (filter _ vs) as [|v l IHl]; [reflexivity|].
  cbn [map existsb]. rewrite IHl, orb_false_r.
  unfold express_validator.field_error.
  destruct (express_validator.field_of field b); reflexivity.
Qed.

Lemma errors_body_hides_password
    (chains : list (string * list express_validator.validator))
    (b : UserData) :
  mentions "password"
    (JObj [("errors", JArr (express_validator.validationResult chains b))])
  = false.
Proof.
  change (false || existsb (mentions "password")
                     (express_validator.validationResult chains b) || false
          = false).
  now rewrite errors_hide_password.
Qed.

Lemma register_strips_password (env : Env) (now : Z) (salt : string)
    (d : UserData) (db db' : Db) (r : AuthResult) :
  AuthService.register env now salt d db = (Ok r, db') ->
  password (user r) = None.
Proof.
  unfold AuthService.register, bind, ret, throw.
  destruct (ud_password d); [|discriminate].
  destruct (UserRepository.create _ _ _) as [[u|msg] db1];
    [|discriminate].
  now intros [= <- _].
Qed.

Lemma login_strips_password (env : Env) (now : Z) (e p : string)
    (db db' : Db) (r : AuthResult) :
  AuthService.login env now e p db = (Ok r, db') ->
  password (user r) = None.
Proof.
  unfold AuthService.login, bind, ret, throw.
  destruct (UserRepository.findByEmail e db) as [[[u|]|msg] db1];
    try discriminate.
  destruct (password u); [|discriminate].
  destruct (bcrypt_compare p s); [|discriminate].
  now intros [= <- _].
Qed.

Lemma auth_handlers_hide_password (env : Env) (now : Z) (salt : string)
    (req : Request) (db : Db) :
  mentions "password"
    (json_body (fst (auth_routes.post_register env now salt req db))) = false
  /\ mentions "password"
       (json_body (fst (auth_routes.post_token env now req db))) = false.
Proof.
  split.
  - unfold auth_routes.post_register.
    destruct (negb _).
    + cbn [fst json_body]. apply errors_body_hides_password.
    + unfold responding, bind.
      destruct (AuthService.register env now salt (body req) db)
        as [[r|msg] db1] eqn:R; [|reflexivity].
      apply register_strips_password in R.
      cbn. unfold user_json. now rewrite R.
  - unfold auth_routes.post_token.
    destruct (negb _).
    + cbn [fst json_body]. apply errors_body_hides_password.
    + unfold responding.
      destruct (ud_email (body req)) as [e|]; [|reflexivity].
      destruct (ud_password (body req)) as [p|]; [|reflexivity].
      unfold bind.
      destruct (AuthService.login env now e p db)
        as [[r|msg] db1] eqn:R; [|reflexivity].
      apply login_strips_password in R.
      cbn. unfold user_json. now rewrite R.
Qed.

(** ** POST /api/users stores what it is sent *)


End Contracts.

(** ** The signing secret *)

Lemma validateEnv_requires_secret (e : Env) :
  env_get "JWT_SECRET" e = None -> In "JWT_SECRET" (validateEnv e).
Proof.
  intros E. unfold validateEnv, envalid.cleanEnv.
  apply in_map_iff. exists ("JWT_SECRET", envalid.str None None).
  split; [reflexivity|].
  apply filter_In. split.
  - simpl. tauto.
  - cbn [fst snd]. now rewrite E.
Qed.

(** C1, as amended.  When [JWT_SECRET] is undefined in the environment,
    start-up ends with [JWT_SECRET] among the rejected variables.  When it
    is set to a non-empty string, tokens are signed and verified with
    exactly that string.  The secret expression of both
    [AuthService.generateToken] and [auth] yields the built-in
    ['your-secret-key'] when the variable is undefined or empty. *)
Theorem jwt_secret_configuration (J : Jwt) (e : Env) :
  (env_get "JWT_SECRET" e = None ->
   exists invalid,
     startup e = ExitedWith invalid /\ In "JWT_SECRET" invalid)
  /\
  (forall s,
     env_get "JWT_SECRET" e = Some s -> s <> "" ->
     jwt_secret e = s
     /\ (forall now userId,
           AuthService.generateToken e now userId = jwt.sign userId s now)
     /\ (forall now req tok,
           authorization req = Some ("Bearer " ++ tok) -> tok <> "" ->
           bearer_payload e now req = jwt.verify tok s now))
  /\
  (env_get "JWT_SECRET" e = None \/ env_get "JWT_SECRET" e = Some "" ->
   jwt_secret e = fallback_secret).
Proof.
  split; [|split].
  - intros E. apply validateEnv_requires_secret in E.
    unfold startup. destruct (validateEnv e) as [|k ks]; [contradiction|].
    now exists (k :: ks).
  - intros s E N.
    assert (S : jwt_secret e = s).
    { unfold jwt_secret. rewrite E.
      apply truthy_iff in N. now rewrite N. }
    split; [exact S|]. split.
    + intros now userId. unfold AuthService.generateToken. now rewrite S.
    + intros now req tok A T.
      rewrite (bearer_payload_of_header e now req tok A T). now rewrite S.
  - unfold jwt_secret. intros [-> | ->]; reflexivity.
Qed.

(* ================================================================== *)
(** * Further properties of the handlers *)

(** ** Lists of keys *)

Lemma existsb_eqb_In (x : string) (l : list string) :
  existsb (String.eqb x) l = true <-> In x l.
Proof.
  rewrite existsb_exists. split.
  - intros [y [I E]]. apply String.eqb_eq in E. now subst.
  - intros I. exists x. split; [assumption | apply String.eqb_refl].
Qed.

Lemma existsb_column (f : UserRow -> string) (x : string)
    (rs : list UserRow) :
  existsb (fun r => String.eqb (f r) x) rs
  = existsb (String.eqb x) (map f rs).
Proof.
  induction rs as [|r rs IH]; [reflexivity|].
  cbn [existsb map]. now rewrite IH, String.eqb_sym.
Qed.

Lemma distinct_snoc (l : list string) (x : string) :
  distinct l = true -> existsb (String.eqb x) l = false ->
  distinct (l ++ [x]) = true.
Proof.
  induction l as [|a l IH]; [reflexivity|].
  cbn [distinct existsb app]. intros D N.
  apply andb_true_iff in D as [D1 D2].
  apply orb_false_iff in N as [N1 N2].
  rewrite existsb_app. cbn [existsb].
  apply negb_true_iff in D1. rewrite D1.
  rewrite String.eqb_sym, N1. cbn. now apply IH.
Qed.

Lemma distinct_find (f : UserRow -> string) (rs : list UserRow)
    (r : UserRow) :
  distinct (map f rs) = true -> In r rs ->
  find (fun r' => String.eqb (f r') (f r)) rs = Some r.
Proof.
  induction rs as [|a rs IH]; [contradiction|].
  cbn [map distinct find]. intros D [->|I].
  - now rewrite String.eqb_refl.
  - apply andb_true_iff in D as [D1 D2]. apply negb_true_iff in D1.
    destruct (String.eqb (f a) (f r)) eqn:E; [|now apply IH].
    apply String.eqb_eq in E.
    assert (X : existsb (String.eqb (f a)) (map f rs) = true).
    { apply existsb_eqb_In. rewrite E. now apply in_map. }
    congruence.
Qed.

Section Further.

Context {B : Bcrypt} {J : Jwt} {V : Validator} {G : UuidGen}.

(** ** What a request does to the store *)

Lemma create_cases (now : Z) (d : UserData) (db : Db) :
  (exists msg, UserRepository.create now d db = (Throw msg, db))
  \/
  (exists u e p,
     d = mkData (Some u) (Some e) (Some p)
     /\ fault db = None
     /\ typeorm.username_taken u db = false
     /\ typeorm.email_taken e db = false
     /\ UserRepository.create now d db
        = (Ok (mkUser (uuid (map row_id (rows db))) u e (Some p) now now),
           typeorm.inserted db u e p now)).
Proof.
  destruct (UserRepository.create now d db) as [[usr|msg] db'] eqn:K.
  - right. apply create_inversion in K
      as (u & e & p & -> & F & NU & NE & -> & ->).
    exists u, e, p. now repeat split.
  - left. exists msg. revert K. run_store.
    destruct (fault db); [now intros [= <- <-]|].
    destruct d as [[u|] [e|] [p|]]; cbn [ud_username ud_email ud_password];
      try (now intros [= <- <-]).
    destruct (_ || _); [now intros [= <- <-] | discriminate].
Qed.

Lemma inserted_unique (db : Db) (u e p : string) (now : Z) :
  unique_keys db = true ->
  typeorm.username_taken u db = false ->
  typeorm.email_taken e db = false ->
  unique_keys (typeorm.inserted db u e p now) = true.
Proof.
  unfold unique_keys, typeorm.username_taken, typeorm.email_taken,
    typeorm.inserted. cbn [rows].
  rewrite !map_app. cbn [map row_id row_username row_email].
  rewrite !existsb_column.
  intros K NU NE.
  apply andb_true_iff in K as [K K3]. apply andb_true_iff in K as [K1 K2].
  rewrite !distinct_snoc; try assumption; [reflexivity|].
  destruct (existsb _ (map row_id (rows db))) eqn:X; [|reflexivity].
  apply existsb_eqb_In in X. now apply uuid_fresh in X.
Qed.

Lemma post_user_cases (now : Z) (req : Request) (db : Db) :
  (exists msg,
     user_routes.post_user now req db
     = (mkResponse 400 (error_body msg), db))
  \/
  (exists u e p,
     body req = mkData (Some u) (Some e) (Some p)
     /\ fault db = None
     /\ typeorm.username_taken u db = false
     /\ typeorm.email_taken e db = false
     /\ user_routes.post_user now req db
        = (mkResponse 201
             (user_json
                (mkUser (uuid (map row_id (rows db))) u e (Some p) now now)),
           typeorm.inserted db u e p now)).
Proof.
  unfold user_routes.post_user, responding, bind.
  destruct (create_cases now (body req) db)
    as [[msg K] | (u & e & p & Hb & F & NU & NE & K)]; rewrite K.
  - left. now exists msg.
  - right. exists u, e, p. now repeat split.
Qed.

Lemma post_register_cases (env : Env) (now : Z) (salt : string)
    (req : Request) (db : Db) :
  (exists body0,
     auth_routes.post_register env now salt req db
     = (mkResponse 400 body0, db))
  \/
  (exists u e p,
     body req = mkData (Some u) (Some e) (Some p)
     /\ express_validator.validationResult auth_routes.register_chains
          (body req) = []
     /\ fault db = None
     /\ typeorm.username_taken u db = false
     /\ typeorm.email_taken e db = false
     /\ auth_routes.post_register env now salt req db
        = (mkResponse 201
             (JObj [ ("user",
                      user_json (mkUser (uuid (map row_id (rows db)))
                                   u e None now now));
                     ("token",
                      JStr (AuthService.generateToken env now
                              (uuid (map row_id (rows db))))) ]),
           typeorm.inserted db u e (bcrypt_hash p 10 salt) now)).
Proof.
  unfold auth_routes.post_register.
  destruct (express_validator.validationResult _ _) eqn:Hv;
    cbn [negb express_validator.isEmpty];
    [|left; eexists; reflexivity].
  unfold responding, bind, AuthService.register.
  destruct (ud_password (body req)) as [p|] eqn:P;
    [|left; eexists; reflexivity].
  unfold bind.
  destruct (create_cases now
              {| ud_username := ud_username (body req);
                 ud_email := ud_email (body req);
                 ud_password := Some (bcrypt_hash p 10 salt) |} db)
    as [[msg K] | (u & e & p' & Hb & F & NU & NE & K)]; rewrite K.
  - left. eexists. reflexivity.
  - right. injection Hb as Hu He Hp. subst p'.
    exists u, e, p. repeat split; try assumption.
    destruct (body req) as [bu be bp]. cbn in *. now subst.
Qed.

(** X1.  The two handlers that write keep the keys of the user table
    unique: if ids, usernames and emails are pairwise different before
    POST /api/users or POST /api/auth/register, they are afterwards,
    whatever the request. *)
Theorem unique_keys_preserved (env : Env) (now : Z) (salt : string)
    (req : Request) (db : Db) :
  unique_keys db = true ->
  unique_keys (snd (user_routes.post_user now req db)) = true
  /\ unique_keys (snd (auth_routes.post_register env now salt req db)) = true.
Proof.
  intros K. split.
  - destruct (post_user_cases now req db)
      as [[msg R] | (u & e & p & _ & _ & NU & NE & R)]; rewrite R;
      cbn [snd]; [assumption | now apply inserted_unique].
  - destruct (post_register_cases env now salt req db)
      as [[b0 R] | (u & e & p & _ & _ & _ & NU & NE & R)]; rewrite R;
      cbn [snd]; [assumption | now apply inserted_unique].
Qed.


(** ** When the writing routes answer 201 *)

Ltac run_chains :=
  unfold express_validator.validationResult, express_validator.run_chain,
    auth_routes.register_chains, auth_routes.token_chains;
  cbn [flat_map fst snd filter express_validator.passes];
  repeat match goal with
    | |- context [express_validator.field_of ?f ?b] =>
        let r := eval cbv beta iota delta
                   [express_validator.field_of String.eqb Ascii.eqb
                    Bool.eqb andb]
                 in (express_validator.field_of f b) in
        change (express_validator.field_of f b) with r
    end.

Lemma register_validators_iff (b : UserData) :
  express_validator.validationResult auth_routes.register_chains b = []
  <-> exists u e p,
        b = mkData (Some u) (Some e) (Some p)
        /\ u <> "" /\ isEmail e = true /\ (6 <= String.length p)%nat.
Proof.
  split.
  - intros R.
    destruct b as [[u|] [e|] [p|]].
    + exists u, e, p. split; [reflexivity|].
      now apply (register_validated _ u e p eq_refl).
    + revert R. run_chains.
      cbn [ud_username ud_email ud_password express_validator.toString].
      destruct (negb (negb _)), (negb (isEmail e)); discriminate.
    + revert R. run_chains.
      cbn [ud_username ud_email ud_password express_validator.toString].
      rewrite isEmail_empty.
      destruct (negb (negb _)); discriminate.
    + revert R. run_chains.
      cbn [ud_username ud_email ud_password express_validator.toString].
      rewrite isEmail_empty.
      destruct (negb (negb _)); discriminate.
    + revert R. run_chains. discriminate.
    + revert R. run_chains. discriminate.
    + revert R. run_chains. discriminate.
    + revert R. run_chains. discriminate.
  - intros (u & e & p & -> & N & M & L). run_chains.
    cbn [ud_username ud_email ud_password express_validator.toString].
    rewrite M. apply String.eqb_neq in N. rewrite N.
    apply Nat.leb_le in L. rewrite L. reflexivity.
Qed.



(** ** When login answers 200 *)



(** ** Round trips through the store *)




Lemma get_login_verified (env : Env) (now : Z) (req : Request) (db : Db)
    (decoded : Token.payload) (row : UserRow) :
  bearer_payload env now req = Ok decoded ->
  fault db = None ->
  find (typeorm.matches (typeorm.where_id (Token.id decoded))) (rows db)
  = Some row ->
  auth_routes.get_login env now req db
  = (mkResponse 200 (user_json (typeorm.load None row)), db)
  /\ user_routes.get_login env now req db
     = (mkResponse 200 (user_json (typeorm.load None row)), db).
Proof.
  intros P F R.
  unfold auth_routes.get_login, user_routes.get_login, auth. rewrite P.
  now apply login_handlers_found.
Qed.

Lemma bearer_of_issued (env : Env) (issued now : Z) (U : string)
    (req : Request) :
  authorization req
  = Some ("Bearer " ++ AuthService.generateToken env issued U) ->
  now < issued + jwt.expiresIn ->
  bearer_payload env now req
  = Ok (Token.mkPayload U issued (issued + jwt.expiresIn)).
Proof.
  intros A T.
  rewrite (bearer_payload_of_header env now req _ A
             (sign_nonempty U (jwt_secret env) issued)).
  now apply verify_sign.
Qed.


Lemma post_token_200 (env : Env) (now : Z) (req : Request) (db : Db) :
  status (fst (auth_routes.post_token env now req db)) = 200 ->
  exists row,
    In row (rows db) /\ fault db = None
    /\ auth_routes.post_token env now req db
       = (mkResponse 200
            (JObj [ ("user", user_json (typeorm.load None row));
                    ("token",
                     JStr (AuthService.generateToken env now (row_id row))) ]),
          db).
Proof.
  destruct (express_validator.validationResult auth_routes.token_chains
              (body req)) as [|j l] eqn:Hv.
  2:{ unfold auth_routes.post_token. rewrite Hv. discriminate. }
  apply token_fields_present in Hv as (e & p & E & P & M).
  rewrite (post_token_after_validation env now req e p db E P M).
  unfold responding, bind.
  destruct (fault db) as [msg|] eqn:F.
  { assert (L : AuthService.login env now e p db = (Throw msg, db)).
    { unfold AuthService.login. run_store. now rewrite F. }
    rewrite L. discriminate. }
  destruct (find (typeorm.matches (typeorm.where_email e)) (rows db))
    as [row|] eqn:R.
  - destruct (bcrypt_compare p (row_password row)) eqn:C.
    + rewrite (login_right_password env now e p db row F R C). intros _.
      exists row. apply find_some in R as [I _]. now repeat split.
    + rewrite (login_wrong_password env now e p db row R C). discriminate.
  - rewrite (login_unknown_email env now e p db R). discriminate.
Qed.

(** X8.  The token of a login opens the protected routes for the user
    that logged in: on a store whose keys are unique, when
    POST /api/auth/token is answered 200 with [{ user, token }] and that
    token is presented as bearer token less than 24 hours later, both GET
    login routes answer 200 with exactly the [user] object of the
    login. *)
Theorem login_token_resolves (env : Env) (now later : Z)
    (req req2 : Request) (db : Db) (tok : string) :
  unique_keys db = true ->
  status (fst (auth_routes.post_token env now req db)) = 200 ->
  property "token" (json_body (fst (auth_routes.post_token env now req db)))
  = Some (JStr tok) ->
  authorization req2 = Some ("Bearer " ++ tok) ->
  later < now + jwt.expiresIn ->
  exists usr,
    property "user" (json_body (fst (auth_routes.post_token env now req db)))
    = Some usr
    /\ auth_routes.get_login env later req2 db = (mkResponse 200 usr, db)
    /\ user_routes.get_login env later req2 db = (mkResponse 200 usr, db).
Proof.
  intros U S K A T.
  destruct (post_token_200 env now req db S) as (row & I & F & R).
  rewrite R in K |- *. cbn in K. injection K as <-.
  eexists. split; [reflexivity|].
  apply (get_login_verified env later req2 db _ row
           (bearer_of_issued env now later _ req2 A T) F).
  unfold unique_keys in U.
  apply andb_true_iff in U as [U _]. apply andb_true_iff in U as [U _].
  exact (distinct_find row_id (rows db) row U I).
Qed.


(** ** The Authorization header *)

Lemma replace_absent (pat rep s : string) :
  occurs pat s = false -> JsString.replace pat rep s = s.
Proof.
  induction s as [|c s IH]; cbn [occurs JsString.replace].
  - now destruct (JsString.strip_prefix pat "").
  - destruct (JsString.strip_prefix pat (String c s)); [discriminate|].
    intros O. now rewrite IH.
Qed.

(** X10.  The middleware does not require the [Bearer] scheme: a header
    in which ['Bearer '] does not occur is taken as the token itself.  A
    token issued by [generateToken] and sent bare, less than 24 hours
    after it was issued, is verified and the request reaches the
    handler with the token's subject as [req.user]. *)
Theorem bearer_scheme_optional (env : Env) (issued now : Z) (U : string)
    (req : Request) (next : Handler AuthRequest) (db : Db) :
  authorization req = Some (AuthService.generateToken env issued U) ->
  occurs "Bearer " (AuthService.generateToken env issued U) = false ->
  now < issued + jwt.expiresIn ->
  auth env now next req db
  = next (mkAuthRequest req
            (Token.mkPayload U issued (issued + jwt.expiresIn))) db.
Proof.
  intros A O T. unfold auth, bearer_payload. rewrite A. cbn [option_map].
  rewrite (replace_absent _ _ _ O).
  assert (N : JsString.truthy (AuthService.generateToken env issued U)
              = true).
  { apply truthy_iff. apply sign_nonempty. }
  rewrite N. cbn [negb]. unfold AuthService.generateToken.
  now rewrite (verify_sign U (jwt_secret env) issued now T).
Qed.

(** X11.  The validity window of an issued token is exactly 86400
    seconds: presented as bearer token at a time before
    [issued + 86400] it is verified and its subject becomes [req.user];
    presented at [issued + 86400] or later, [jwt.verify] throws and both
    protected login routes answer 401. *)
Theorem token_validity_window (env : Env) (issued now : Z) (U : string)
    (req : Request) (db : Db) :
  authorization req
  = Some ("Bearer " ++ AuthService.generateToken env issued U) ->
  (now < issued + 86400 ->
   bearer_payload env now req = Ok (Token.mkPayload U issued (issued + 86400)))
  /\
  (issued + 86400 <= now ->
   bearer_payload env now req = Throw "jwt expired"
   /\ auth_routes.get_login env now req db = (please_authenticate, db)
   /\ user_routes.get_login env now req db = (please_authenticate, db)).
Proof.
  intros A.
  assert (E : bearer_payload env now req
              = jwt.verify (jwt.sign U (jwt_secret env) issued)
                  (jwt_secret env) now).
  { apply (bearer_payload_of_header env now req _ A).
    apply sign_nonempty. }
  change 86400 with jwt.expiresIn. split.
  - intros T. rewrite E. now apply verify_sign.
  - intros T.
    assert (X : bearer_payload env now req = Throw "jwt expired").
    { rewrite E. now apply verify_expired. }
    split; [exact X|]. now apply (get_login_rejects env now req db _ X).
Qed.

(** ** A failing store *)

(** X12.  While the data source rejects queries with an error, every
    route that reaches the store sends the error's own message to the
    client as [{ error }] and leaves the store alone; the status is the
    one of the handler's catch block: 400 for GET /api/users/:id,
    POST /api/users and (past its validators) POST /api/auth/register,
    and 401 for POST /api/auth/token past its validators. *)
Theorem store_failure_answers (env : Env) (now : Z) (salt : string)
    (req : Request) (db : Db) (msg : string) :
  fault db = Some msg ->
  user_routes.get_user req db = (mkResponse 400 (error_body msg), db)
  /\ user_routes.post_user now req db = (mkResponse 400 (error_body msg), db)
  /\ (express_validator.validationResult auth_routes.register_chains
        (body req) = [] ->
      auth_routes.post_register env now salt req db
      = (mkResponse 400 (error_body msg), db))
  /\ (express_validator.validationResult auth_routes.token_chains
        (body req) = [] ->
      auth_routes.post_token env now req db
      = (mkResponse 401 (error_body msg), db)).
Proof.
  intros F. split; [|split; [|split]].
  - unfold user_routes.get_user. run_store. now rewrite F.
  - unfold user_routes.post_user. run_store. now rewrite F.
  - intros Hv. pose proof Hv as Hv'.
    apply register_validators_iff in Hv' as (u & e & p & Hb & _).
    unfold auth_routes.post_register.
    rewrite Hv. cbn [negb express_validator.isEmpty]. rewrite Hb.
    unfold AuthService.register. cbn [ud_password]. run_store.
    now rewrite F.
  - intros Hv. apply token_fields_present in Hv as (e & p & E & P & M).
    rewrite (post_token_after_validation env now req e p db E P M).
    unfold AuthService.login. run_store. now rewrite F.
Qed.

End Further.

(** ** The environment *)







(** ** Data points *)




Section DataPoints.

Context {G : UuidGen}.




End DataPoints.

(* ================================================================== *)
(** ** The reference implementations meet the contracts *)

Lemma dec_enc_pos (p : positive) (rest : string) :
  Reference.dec_pos (Reference.enc_pos p ++ rest) = Some (p, rest).
Proof.
  induction p as [q IH|q IH|]; simpl; try rewrite IH; reflexivity.
Qed.

Lemma dec_enc_Z (z : Z) (rest : string) :
  Reference.dec_Z (Reference.enc_Z z ++ rest) = Some (z, rest).
Proof.
  destruct z; simpl; try rewrite dec_enc_pos; reflexivity.
Qed.

Lemma decode_encode (p : Token.payload) (sig : N) :
  Reference.decode (Reference.encode p sig) = Some (p, sig).
Proof.
  unfold Reference.decode, Reference.encode.
  rewrite dec_enc_Z.
  destruct (Z.of_N sig <? 0) eqn:E; [apply Z.ltb_lt in E; lia|].
  rewrite !dec_enc_Z, N2Z.id. now destruct p.
Qed.

Lemma encode_nonempty (p : Token.payload) (sig : N) :
  Reference.encode p sig <> "".
Proof.
  unfold Reference.encode. destruct (Z.of_N sig); discriminate.
Qed.

Lemma compare_hash (data : string) (rounds : nat) (salt : string) :
  Reference.compare data (Reference.hash data rounds salt) = true.
Proof.
  unfold Reference.compare, Reference.hash.
  now rewrite strip_prefix_app.
Qed.

Lemma length_replicate (n : nat) (c : ascii) :
  String.length (Reference.replicate n c) = n.
Proof. induction n; simpl; congruence. Qed.

Lemma max_length_bound (l : list string) (s : string) :
  In s l -> (String.length s <= Reference.max_length l)%nat.
Proof.
  induction l as [|x l IH]; simpl; [tauto|].
  intros [->|H]; [|specialize (IH H)]; lia.
Qed.

Lemma fresh_not_used (used : list string) :
  ~ In (Reference.fresh used) used.
Proof.
  intro H. apply max_length_bound in H.
  unfold Reference.fresh in H. rewrite length_replicate in H. lia.
Qed.

Definition ref_bcrypt : Bcrypt :=
  {| bcrypt_hash := Reference.hash;
     bcrypt_compare := Reference.compare;
     bcrypt_compare_hash := compare_hash |}.

Definition ref_jwt : Jwt :=
  {| hs256 := Reference.mac;
     jwt_encode := Reference.encode;
     jwt_decode := Reference.decode;
     jwt_decode_encode := decode_encode;
     jwt_encode_nonempty := encode_nonempty |}.

Definition ref_validator : Validator :=
  {| isEmail := Reference.has_at;
     isEmail_empty := eq_refl |}.

Definition ref_uuid : UuidGen :=
  {| uuid := Reference.fresh;
     uuid_fresh := fresh_not_used |}.

(* ================================================================== *)
(** * Scenarios

    The handlers run on the reference implementations, with the
    environment of [__tests__/setup.ts]. *)

Section Scenarios.

#[local] Existing Instances ref_bcrypt ref_jwt ref_validator ref_uuid.

(** *** The signing secret (C1) *)

(** With [JWT_SECRET] set to the empty string the validation accepts the
    environment and the application starts, yet tokens are signed with
    ['your-secret-key'] and a token signed with that string is verified
    by [auth]. *)
Lemma fallback_secret_in_use :
  env_get "JWT_SECRET" env_empty_secret = Some ""
  /\ startup env_empty_secret = Started
  /\ AuthService.generateToken env_empty_secret 1000 "u"
     = jwt.sign "u" "your-secret-key" 1000
  /\ bearer_payload env_empty_secret 2000
       (get_with ("Bearer " ++ jwt.sign "u" "your-secret-key" 1000))
     = Ok (Token.mkPayload "u" 1000 87400).
Proof. repeat split; vm_compute; reflexivity. Qed.

Lemma jwt_secret_configuration_witness :
  (exists invalid,
     startup env_no_secret = ExitedWith invalid /\ In "JWT_SECRET" invalid)
  /\ jwt_secret env_test = "test-jwt-secret-key"
  /\ jwt_secret env_empty_secret = fallback_secret.
Proof.
  split; [|split].
  - apply (proj1 (jwt_secret_configuration ref_jwt env_no_secret)).
    reflexivity.
  - apply (proj1 (proj2 (jwt_secret_configuration ref_jwt env_test))
             "test-jwt-secret-key"); [reflexivity | discriminate].
  - apply (proj2 (proj2 (jwt_secret_configuration ref_jwt env_empty_secret))).
    right. reflexivity.
Defined.

(** *** Login failures (C3) *)


(** *** Bearer tokens (C4, C7) *)

(** A token for alice issued at time 1000 and presented 24 hours later,
    at 87400, is refused although her record is in the healthy store. *)
Lemma expired_token_refused :
  find (typeorm.matches (typeorm.where_id "u")) (rows db_alice)
  = Some row_alice
  /\ fault db_alice = None
  /\ auth_routes.get_login env_test 87400
       (get_with ("Bearer " ++ AuthService.generateToken env_test 1000 "u"))
       db_alice
     = (please_authenticate, db_alice)
  /\ user_routes.get_login env_test 87400
       (get_with ("Bearer " ++ AuthService.generateToken env_test 1000 "u"))
       db_alice
     = (please_authenticate, db_alice).
Proof. repeat split; vm_compute; reflexivity. Qed.

Lemma bearer_token_resolution_witness :
  (row_id row_alice = "u"
   /\ auth_routes.get_login env_test 4600
        (get_with ("Bearer " ++ AuthService.generateToken env_test 1000 "u"))
        db_alice
      = (mkResponse 200 (user_json (typeorm.load None row_alice)), db_alice)
   /\ user_routes.get_login env_test 4600
        (get_with ("Bearer " ++ AuthService.generateToken env_test 1000 "u"))
        db_alice
      = (mkResponse 200 (user_json (typeorm.load None row_alice)), db_alice))
  /\
  (auth_routes.get_login env_test 4600 (get_with ("Bearer " ++ forged))
     db_alice
   = (please_authenticate, db_alice)
   /\ user_routes.get_login env_test 4600 (get_with ("Bearer " ++ forged))
        db_alice
      = (please_authenticate, db_alice)).
Proof.
  destruct (bearer_token_resolution env_test 4600 db_alice) as [Issued Forged].
  split.
  - apply (Issued "u" row_alice 1000); reflexivity.
  - apply (Forged forged (Token.mkPayload "u" 1000 87400) 0%N);
      [reflexivity | reflexivity | vm_compute; discriminate].
Defined.

Lemma auth_state_machine_witness :
  auth env_test 4600 user_routes.login_handler get_plain db_alice
  = (please_authenticate, db_alice)
  /\ auth env_test 4600 user_routes.login_handler (get_with "Bearer ")
       db_alice
     = (please_authenticate, db_alice)
  /\ auth env_test 4600 user_routes.login_handler
       (get_with ("Bearer " ++ forged)) db_alice
     = (please_authenticate, db_alice)
  /\ auth env_test 4600 user_routes.login_handler
       (get_with ("Bearer " ++ jwt.sign "u" "test-jwt-secret-key" 1000))
       db_alice
     = user_routes.login_handler
         (mkAuthRequest
            (get_with ("Bearer " ++ jwt.sign "u" "test-jwt-secret-key" 1000))
            (Token.mkPayload "u" 1000 87400))
         db_alice.
Proof.
  split; [|split; [|split]].
  - apply (proj1 (auth_state_machine env_test 4600 get_plain
                    user_routes.login_handler db_alice)).
    reflexivity.
  - apply (proj1 (proj2 (auth_state_machine env_test 4600
                           (get_with "Bearer ")
                           user_routes.login_handler db_alice))
             "Bearer "); reflexivity.
  - apply (proj1 (proj2 (proj2 (auth_state_machine env_test 4600
                                  (get_with ("Bearer " ++ forged))
                                  user_routes.login_handler db_alice)))
             ("Bearer " ++ forged) "invalid signature"); reflexivity.
  - apply (proj2 (proj2 (proj2 (auth_state_machine env_test 4600
             (get_with ("Bearer " ++ jwt.sign "u" "test-jwt-secret-key" 1000))
             user_routes.login_handler db_alice)))
             ("Bearer " ++ jwt.sign "u" "test-jwt-secret-key" 1000)
             (Token.mkPayload "u" 1000 87400));
      [reflexivity | vm_compute; discriminate | reflexivity].
Defined.

(** *** Registration (C5, C6) *)

(** Alice's input passes the validators, yet registering it a second time
    is answered 400 and the store does not change. *)
Lemma second_registration_refused :
  express_validator.validationResult auth_routes.register_chains alice = []
  /\ fst (auth_routes.post_register env_test 1000 "salt" (post alice) empty_db)
     = mkResponse 201
         (JObj [ ("user",
                  user_json (mkUser "u" "alice" "a@x.com" None 1000 1000));
                 ("token", JStr (AuthService.generateToken env_test 1000 "u")) ])
  /\ snd (auth_routes.post_register env_test 1000 "salt" (post alice) empty_db)
     = db_alice
  /\ auth_routes.post_register env_test 2000 "pepper" (post alice) db_alice
     = (mkResponse 400
          (error_body "duplicate key value violates unique constraint"),
        db_alice).
Proof. repeat split; vm_compute; reflexivity. Qed.

Lemma register_then_login_witness :
  exists usr db',
    auth_routes.post_register env_test 1000 "salt" (post alice) empty_db
    = (mkResponse 201
         (JObj [ ("user", user_json usr);
                 ("token",
                  JStr (AuthService.generateToken env_test 1000 (id usr))) ]),
       db')
    /\ username usr = "alice" /\ email usr = "a@x.com"
    /\ password usr = None
    /\ mentions "password"
         (json_body
            (fst (auth_routes.post_register env_test 1000 "salt" (post alice)
                    empty_db)))
       = false
    /\ auth_routes.post_token env_test 2000
         (post (mkData None (Some "a@x.com") (Some "secret1"))) db'
       = (mkResponse 200
            (JObj [ ("user", user_json usr);
                    ("token",
                     JStr (AuthService.generateToken env_test 2000 (id usr))) ]),
          db').
Proof.
  apply (register_then_login env_test 1000 2000 "salt" (post alice)
           (post (mkData None (Some "a@x.com") (Some "secret1")))
           empty_db "alice" "a@x.com" "secret1");
    reflexivity.
Defined.


(** *** The two login handlers (C8) *)


(** *** The user store (C9, C10) *)

Lemma reads_and_the_password_column_witness :
  (exists r, UserRepository.findById "u" db_alice
             = (Ok (Some (typeorm.load None r)), db_alice)
             /\ user_repository.findById "u" db_alice
                = (Ok (Some (typeorm.load None r)), db_alice)
             /\ In r (rows db_alice) /\ row_id r = "u"
             /\ password (typeorm.load None r) = None)
  /\
  (exists us, UserRepository.findAll db_alice = (Ok us, db_alice)
              /\ length us = length (rows db_alice)
              /\ Forall (fun u => password u = None) us)
  /\
  (exists r u, UserRepository.findByEmail "a@x.com" db_alice
               = (Ok (Some u), db_alice)
               /\ user_repository.findByEmail "a@x.com" db_alice
                  = (Ok (Some u), db_alice)
               /\ In r (rows db_alice) /\ row_email r = "a@x.com"
               /\ id u = row_id r
               /\ password u = Some (row_password r)).
Proof.
  apply (reads_and_the_password_column db_alice row_alice).
  - reflexivity.
  - simpl. tauto.
Defined.


End Scenarios.

Section MoreScenarios.

#[local] Existing Instances ref_bcrypt ref_jwt ref_validator ref_uuid.

Lemma unique_keys_preserved_witness :
  unique_keys (snd (user_routes.post_user 2000 (post bob) db_alice)) = true
  /\ unique_keys
       (snd (auth_routes.post_register env_test 2000 "salt" (post bob)
               db_alice)) = true.
Proof.
  apply (unique_keys_preserved env_test 2000 "salt" (post bob) db_alice).
  reflexivity.
Defined.






Lemma login_token_resolves_witness :
  exists usr,
    property "user"
      (json_body (fst (auth_routes.post_token env_test 1500
                         (post (mkData None (Some "a@x.com") (Some "secret1")))
                         db_alice)))
    = Some usr
    /\ auth_routes.get_login env_test 2000
         (get_with ("Bearer " ++ AuthService.generateToken env_test 1500 "u"))
         db_alice
       = (mkResponse 200 usr, db_alice)
    /\ user_routes.get_login env_test 2000
         (get_with ("Bearer " ++ AuthService.generateToken env_test 1500 "u"))
         db_alice
       = (mkResponse 200 usr, db_alice).
Proof.
  apply (login_token_resolves env_test 1500 2000
           (post (mkData None (Some "a@x.com") (Some "secret1")))
           (get_with ("Bearer " ++ AuthService.generateToken env_test 1500 "u"))
           db_alice (AuthService.generateToken env_test 1500 "u"));
    reflexivity.
Defined.


Lemma bearer_scheme_optional_witness :
  auth env_test 2000 user_routes.login_handler
    (get_with (AuthService.generateToken env_test 1000 "u")) db_alice
  = user_routes.login_handler
      (mkAuthRequest (get_with (AuthService.generateToken env_test 1000 "u"))
         (Token.mkPayload "u" 1000 (1000 + jwt.expiresIn)))
      db_alice.
Proof.
  apply (bearer_scheme_optional env_test 1000 2000 "u"
           (get_with (AuthService.generateToken env_test 1000 "u"))
           user_routes.login_handler db_alice); reflexivity.
Defined.

Lemma token_validity_window_witness :
  bearer_payload env_test 87399
    (get_with ("Bearer " ++ AuthService.generateToken env_test 1000 "u"))
  = Ok (Token.mkPayload "u" 1000 (1000 + 86400))
  /\ bearer_payload env_test 87400
       (get_with ("Bearer " ++ AuthService.generateToken env_test 1000 "u"))
     = Throw "jwt expired".
Proof.
  split.
  - apply (proj1 (token_validity_window env_test 1000 87399 "u"
                    (get_with
                       ("Bearer "
                        ++ AuthService.generateToken env_test 1000 "u"))
                    db_alice eq_refl)).
    reflexivity.
  - apply (proj2 (token_validity_window env_test 1000 87400 "u"
                    (get_with
                       ("Bearer "
                        ++ AuthService.generateToken env_test 1000 "u"))
                    db_alice eq_refl)).
    vm_compute. discriminate.
Defined.

Lemma store_failure_answers_witness :
  user_routes.get_user (mkRequest None alice "u") db_down
  = (mkResponse 400 (error_body "Connection terminated unexpectedly"),
     db_down)
  /\ user_routes.post_user 2000 (mkRequest None alice "u") db_down
     = (mkResponse 400 (error_body "Connection terminated unexpectedly"),
        db_down)
  /\ auth_routes.post_register env_test 2000 "salt" (mkRequest None alice "u")
       db_down
     = (mkResponse 400 (error_body "Connection terminated unexpectedly"),
        db_down)
  /\ auth_routes.post_token env_test 2000 (mkRequest None alice "u") db_down
     = (mkResponse 401 (error_body "Connection terminated unexpectedly"),
        db_down).
Proof.
  destruct (store_failure_answers env_test 2000 "salt"
              (mkRequest None alice "u") db_down
              "Connection terminated unexpectedly" eq_refl)
    as (H1 & H2 & H3 & H4).
  split; [exact H1|]. split; [exact H2|].
  split; [apply H3 | apply H4]; reflexivity.
Defined.





End MoreScenarios.
